(** * SubTP: snapshot, diff and publish over Django model signals

    A shallow embedding of [subtp/__init__.py].  The three module globals
    ([_snapshots], [_callbacks], [_registered_models]) form the state that
    every function threads; a Python exception is a [Raise] result, and the
    state at the raise is kept (Python does not roll back).  Dictionaries
    are [gmap]s; where the source iterates over one, the order of the
    iteration is a parameter ([dict_items]).  The payload dictionary and
    the attributes dictionary that [publish] hands to the subscribers are
    mutable objects shared with them: a subscriber replies with what it
    has made of both. *)

From stdpp Require Import gmap strings list fin_maps.

(** ** Exceptions and results *)

Inductive exn :=
  | TypeError (msg : string)
  | KeyError (key : string)
  | ValueError (msg : string)
  | OtherError (name : string).

Inductive result (A : Type) :=
  | Ok (a : A)
  | Raise (e : exn).
Arguments Ok {A} a.
Arguments Raise {A} e.

Definition raises {A} (r : result A) : Prop :=
  match r with Ok _ => False | Raise _ => True end.

Definition returns {A} (r : result A) : Prop :=
  match r with Ok _ => True | Raise _ => False end.

(** ** Python values and dictionaries *)

(** Attribute values are Python objects taken up to [==]: two elements
    of [Value] that differ compare unequal.  An element compared with
    itself compares equal, unless it is one of the values that are not
    equal to themselves, such as [float('nan')]; [unequal_to_itself]
    tells which. *)
Class SelfCompare (Value : Type) := unequal_to_itself : Value → bool.

(** [for key in d] meets every entry of the dictionary once, in an order
    that this development does not fix. *)
Class DictOrder (Value : Type) := {
  dict_items : gmap string Value → list (string * Value);
  dict_items_perm (d : gmap string Value) : dict_items d ≡ₚ map_to_list d
}.

Section subtp.

(** Model classes, attribute values and primary keys are opaque Python
    objects; [==] on classes ([in], [list.remove]) is a decidable
    equality. *)
Context {Model Value Pk : Type}.
Context `{!EqDecision Model} `{!EqDecision Value}.
Context `{!SelfCompare Value} `{!DictOrder Value}.

(** Python's [v != w] on attribute values. *)
Definition py_ne (v w : Value) : bool :=
  if decide (v = w) then unequal_to_itself v else true.

(** The payload dictionary built by [publish]: key ["id"] holds the
    primary key, key ["data"] the attribute dictionary. *)
Inductive payload_value :=
  | PId (pk : Pk)
  | PData (attributes : gmap string Value).

(** What a subscriber has done by the time control is back in
    [publish]: whether it raised, the payload dictionary as it leaves it,
    and, when it has changed in place the attributes dictionary that
    [payload["data"]] refers to (its keys, or a value it holds), the new
    contents of that dictionary. *)
Record reply := Reply {
  raised : option exn;
  payload_left : gmap string payload_value;
  attributes_left : option (gmap string Value)
}.

(** A subscriber is any callable taking [model_class], [event] and
    [payload].  It is not taken to call back into this module. *)
Definition callback : Type :=
  Model → string → gmap string payload_value → reply.

(** One call [callback(model_class=.., event=.., payload=..)], with the
    payload as it was when the call was made. *)
Record invocation := Invocation {
  inv_callback : callback;
  inv_model_class : Model;
  inv_event : string;
  inv_payload : gmap string payload_value
}.

(** The module globals, and the log of subscriber calls made so far (the
    log is not a variable of the source: it records the module's calls
    into the subscribers). *)
Record state := State {
  _snapshots : gmap Z (gmap string Value);
  _callbacks : list callback;
  _registered_models : list Model;
  calls : list invocation
}.

(** What the hooks read of a model object: [id(instance)],
    [instance.__dict__], the names of [instance._meta.fields] and
    [instance.pk]. *)
Record model_instance := ModelInstance {
  py_id : Z;
  __dict__ : gmap string Value;
  _meta_fields : list string;
  pk : Pk
}.

(** ** The state and exception monad *)

Definition M (A : Type) : Type := state → result A * state.

Definition ret {A} (a : A) : M A := λ s, (Ok a, s).

Definition bind {A B} (m : M A) (k : A → M B) : M B :=
  λ s, match m s with
       | (Ok a, s') => k a s'
       | (Raise e, s') => (Raise e, s')
       end.

Definition raise {A} (e : exn) : M A := λ s, (Raise e, s).

Definition gets {A} (f : state → A) : M A := λ s, (Ok (f s), s).

Definition modify (f : state → state) : M unit := λ s, (Ok tt, f s).

#[global] Instance M_ret : MRet M := @ret.
#[global] Instance M_bind : MBind M := λ A B k m, bind m k.

Definition set_snapshots (f : gmap Z (gmap string Value) → gmap Z (gmap string Value))
    (s : state) : state :=
  State (f (_snapshots s)) (_callbacks s) (_registered_models s) (calls s).

Definition set_callbacks (f : list callback → list callback) (s : state) : state :=
  State (_snapshots s) (f (_callbacks s)) (_registered_models s) (calls s).

Definition set_registered_models (f : list Model → list Model) (s : state) : state :=
  State (_snapshots s) (_callbacks s) (f (_registered_models s)) (calls s).

Definition log_call (i : invocation) (s : state) : state :=
  State (_snapshots s) (_callbacks s) (_registered_models s) (calls s ++ [i]).

(** ** Registry *)

(** [_registered_models.append(model_class)] *)
Definition register (model_class : Model) : M unit :=
  modify (set_registered_models (λ l, l ++ [model_class])).

(** Python's [list.remove(x)]: drops the first element equal to [x];
    [None] stands for the [ValueError] raised when there is none. *)
Fixpoint list_remove (x : Model) (l : list Model) : option (list Model) :=
  match l with
  | [] => None
  | y :: l' =>
      if decide (y = x) then Some l'
      else match list_remove x l' with
           | Some r => Some (y :: r)
           | None => None
           end
  end.

(** [_registered_models.remove(model_class)] *)
Definition unregister (model_class : Model) : M unit :=
  l ← gets _registered_models;
  match list_remove model_class l with
  | Some l' => modify (set_registered_models (λ _, l'))
  | None => raise (ValueError "list.remove(x): x not in list")
  end.

(** ** Publisher *)

(** [_callbacks.append(callback)] *)
Definition add_callback (cb : callback) : M unit :=
  modify (set_callbacks (λ l, l ++ [cb])).

(** Python's truth value of [attributes], which is [None] or a
    dictionary: a dictionary is true when it has at least one key. *)
Definition truthy (attributes : option (gmap string Value)) : bool :=
  match attributes with
  | None => false
  | Some d => negb (Nat.eqb (size d) 0)
  end.

(** [payload = {"id": pk}], then [payload.update({"data": attributes})]
    under [if attributes:]. *)
Definition build_payload (pk : Pk) (attributes : option (gmap string Value))
    : gmap string payload_value :=
  let payload : gmap string payload_value := {["id" := PId pk]} in
  match attributes with
  | Some d => if truthy attributes then <["data" := PData d]> payload else payload
  | None => payload
  end.

(** The attributes dictionary after a subscriber's reply.  [handed] is
    [None] when [publish] has not put the dictionary into the payload:
    no subscriber can reach it then. *)
Definition edit (handed : option (gmap string Value)) (r : reply)
    : option (gmap string Value) :=
  match handed with
  | Some d => Some (default d (attributes_left r))
  | None => None
  end.

(** The loop [for callback in _callbacks: callback(...)].  Every
    subscriber is called with the one payload dictionary, as the
    subscribers before it have left it; an exception raised by a
    subscriber is not caught, so it ends the loop.  The value returned is
    the attributes dictionary as the subscribers leave it. *)
Fixpoint invoke_all (cbs : list callback) (model_class : Model) (event : string)
    (payload : gmap string payload_value) (handed : option (gmap string Value))
    : M (option (gmap string Value)) :=
  match cbs with
  | [] => mret handed
  | cb :: rest =>
      modify (log_call (Invocation cb model_class event payload));;
      let r := cb model_class event payload in
      match raised r with
      | Some e => raise e
      | None => invoke_all rest model_class event (payload_left r) (edit handed r)
      end
  end.

(** [publish] returns nothing in the source; here it returns the
    dictionary passed as [attributes] with the contents it has when the
    subscribers are done, since the caller goes on using that very
    dictionary. *)
Definition publish (model_class : Model) (event : string) (pk : Pk)
    (attributes : option (gmap string Value)) : M (option (gmap string Value)) :=
  let payload := build_payload pk attributes in
  let handed := if truthy attributes then attributes else None in
  cbs ← gets _callbacks;
  left ← invoke_all cbs model_class event payload handed;
  mret (if truthy attributes then left else attributes).

(** ** Snapshots *)

(** The dictionary comprehension over [instance.__dict__.items()] that
    keeps the keys listed in [instance._meta.fields]. *)
Definition get_attributes (instance : model_instance) : gmap string Value :=
  let whitelist := _meta_fields instance in
  filter (λ kv, kv.1 ∈ whitelist) (__dict__ instance).

(** The closure [destructor] that [post_init_callback] hands to
    [weakref.ref]; [instance] is the object captured by the closure. *)
Definition destructor (instance : model_instance) : M unit :=
  snaps ← gets _snapshots;
  if decide (is_Some (snaps !! py_id instance)) then
    modify (set_snapshots (delete (py_id instance)))
  else mret tt.

(** ** The delta of a save *)

(** One round of the comprehension
    [{key: attributes[key] for key in attributes
      if attributes[key] != previous[key]}]:
    [previous[key]] raises [KeyError] when [key] is missing. *)
Definition delta_step (previous : gmap string Value) (key : string) (value : Value)
    (acc : result (gmap string Value)) : result (gmap string Value) :=
  match acc with
  | Raise e => Raise e
  | Ok delta =>
      match previous !! key with
      | None => Raise (KeyError key)
      | Some old =>
          if py_ne value old then Ok (<[key := value]> delta) else Ok delta
      end
  end.

(** The comprehension, round after round in the order of the
    dictionary: the first missing key it meets is the one it raises. *)
Definition compute_delta (attributes previous : gmap string Value)
    : result (gmap string Value) :=
  foldl (λ acc kv, delta_step previous kv.1 kv.2 acc) (Ok ∅) (dict_items attributes).

Definition lift {A} (r : result A) : M A :=
  match r with
  | Ok a => mret a
  | Raise e => raise e
  end.

(** ** Signal receivers *)

(** [weakref.ref(instance, destructor)] builds a weak reference and
    drops it; it changes none of the module globals. *)
Definition post_init_callback (sender : Model) (instance : model_instance) : M unit :=
  registered ← gets _registered_models;
  if decide (sender ∉ registered) then mret tt
  else
    let attributes := get_attributes instance in
    modify (set_snapshots (<[py_id instance := attributes]>)).

(** The [raise KeyError("...%s...%s" % dict(...))] of the source formats
    two [%s] with a single dictionary operand, so the exception that
    leaves the hook there is the [TypeError] of the [%] operator. *)
Definition snapshot_not_found : exn :=
  TypeError "not enough arguments for format string".

(** On the create path the dictionary stored at the end is the one the
    subscribers were handed as [payload["data"]], so it is stored as they
    leave it; on the update path they are handed the delta, a different
    dictionary. *)
Definition post_save_callback (sender : Model) (instance : model_instance)
    (created : bool) : M unit :=
  registered ← gets _registered_models;
  if decide (sender ∉ registered) then mret tt
  else
    let attributes := get_attributes instance in
    attributes ←
      (if created then
         left ← publish sender "create" (pk instance) (Some attributes);
         mret (default attributes left)
       else
         snaps ← gets _snapshots;
         let previous := snaps !! py_id instance in
         if negb (truthy previous) then raise snapshot_not_found
         else
           delta ← lift (compute_delta attributes (default ∅ previous));
           publish sender "update" (pk instance) (Some delta);;
           mret attributes);
    modify (set_snapshots (<[py_id instance := attributes]>)).

Definition post_delete_callback (sender : Model) (instance : model_instance) : M unit :=
  registered ← gets _registered_models;
  if decide (sender ∉ registered) then mret tt
  else publish sender "delete" (pk instance) None;; mret tt.

(** ** What a run of the subscriber loop leaves behind *)

(** The calls the loop of [publish] makes: one to each subscriber up to
    and including the first that raises, each with the payload as the
    subscribers before it have left it. *)
Fixpoint subscriber_calls (cbs : list callback) (model_class : Model) (event : string)
    (payload : gmap string payload_value) : list invocation :=
  match cbs with
  | [] => []
  | cb :: rest =>
      Invocation cb model_class event payload ::
      match raised (cb model_class event payload) with
      | Some _ => []
      | None =>
          subscriber_calls rest model_class event
            (payload_left (cb model_class event payload))
      end
  end.

(** The exception that ends the loop, if any. *)
Fixpoint first_raise (cbs : list callback) (model_class : Model) (event : string)
    (payload : gmap string payload_value) : option exn :=
  match cbs with
  | [] => None
  | cb :: rest =>
      match raised (cb model_class event payload) with
      | Some e => Some e
      | None =>
          first_raise rest model_class event
            (payload_left (cb model_class event payload))
      end
  end.

(** The attributes dictionary after the loop, when no subscriber
    raises. *)
Fixpoint attributes_after (cbs : list callback) (model_class : Model) (event : string)
    (payload : gmap string payload_value) (handed : option (gmap string Value))
    : option (gmap string Value) :=
  match cbs with
  | [] => handed
  | cb :: rest =>
      attributes_after rest model_class event
        (payload_left (cb model_class event payload))
        (edit handed (cb model_class event payload))
  end.

(** The dictionary passed to [publish] as [attributes], as it is when
    [publish] returns: the subscribers can reach it only when it is in
    the payload. *)
Definition attributes_published (cbs : list callback) (model_class : Model)
    (event : string) (pk : Pk) (attributes : gmap string Value) : gmap string Value :=
  if truthy (Some attributes) then
    default attributes
      (attributes_after cbs model_class event
         (build_payload pk (Some attributes)) (Some attributes))
  else attributes.

(** The calls [callback(model_class, event, payload)] for a list of
    subscribers, in the order of the list, all with the same payload. *)
Definition deliveries (cbs : list callback) (model_class : Model) (event : string)
    (payload : gmap string payload_value) : list invocation :=
  (λ cb, Invocation cb model_class event payload) <$> cbs.

(** The subscriber returns and leaves the payload, and the attributes
    dictionary behind it with the values it holds, as it got them. *)
Definition observes (cb : callback) (model_class : Model) (event : string)
    (payload : gmap string payload_value) : Prop :=
  cb model_class event payload = Reply None payload None.

(** No registered subscriber raises, whatever it is called with. *)
Definition subscribers_return (s : state) : Prop :=
  ∀ cb model_class event payload,
    cb ∈ _callbacks s → raised (cb model_class event payload) = None.

(** Every registered subscriber returns and leaves what it is handed as
    it got it, whatever it is called with. *)
Definition subscribers_observe (s : state) : Prop :=
  ∀ cb model_class event payload,
    cb ∈ _callbacks s → observes cb model_class event payload.

(** The delta in the words of the specification: the entries of
    [current] whose value compares unequal to the one [previous] holds
    under the same key. *)
Definition changed (current previous : gmap string Value) : gmap string Value :=
  filter (λ kv, from_option (py_ne kv.2) true (previous !! kv.1) = true) current.

(** [previous] can serve as the baseline of a diff against [current]: it
    is not empty and it has every key of [current]. *)
Definition usable_snapshot (current previous : gmap string Value) : Prop :=
  previous ≠ ∅ ∧ dom current ⊆ dom previous.

End subtp.

(** ** A concrete instantiation: model classes by name, integer primary
    keys ([None] before the row has one), strings, integers and the float
    [nan] as attribute values *)

Inductive pyval :=
  | PyStr (s : string)
  | PyInt (z : Z)
  | PyNaN.

#[global] Instance pyval_eq_dec : EqDecision pyval.
Proof. solve_decision. Defined.

(** [float('nan') != float('nan')] is true. *)
#[global] Instance pyval_self_compare : SelfCompare pyval :=
  λ v, match v with PyNaN => true | _ => false end.

#[global] Instance pyval_dict_order : DictOrder pyval :=
  {| dict_items := map_to_list; dict_items_perm d := reflexivity (map_to_list d) |}.

Module Scenario.

Abbreviation st := (@state string pyval (option Z)).
Abbreviation cbk := (@callback string pyval (option Z)).
Abbreviation inst := (@model_instance pyval (option Z)).

(** A subscriber that returns and touches nothing. *)
Definition listener : cbk := λ _ _ payload, Reply None payload None.

(** The subscriber of the module docstring,
    [def my_callback(model_class, event, pk, attributes)]: called with
    the keyword [payload] it raises [TypeError]. *)
Definition my_callback : cbk :=
  λ _ _ payload,
    Reply (Some (TypeError "my_callback() got an unexpected keyword argument 'payload'"))
      payload None.

(** A subscriber that runs [payload.get("data", {}).pop("total", None)]:
    it removes the key ["total"] from the dictionary under ["data"], in
    place. *)
Definition trimmer : cbk :=
  λ _ _ payload,
    match payload !! "data" with
    | Some (PData d) =>
        Reply None (<["data" := PData (delete "total" d)]> payload)
          (Some (delete "total" d))
    | _ => Reply None payload None
    end.

(** Payloads: [{"id": pk}] and [{"id": pk, "data": attributes}]. *)
Definition only_id (k : option Z) : gmap string (@payload_value pyval (option Z)) :=
  {["id" := PId k]}.

Definition with_data (k : option Z) (attributes : gmap string pyval)
    : gmap string (@payload_value pyval (option Z)) :=
  <["data" := PData attributes]> {["id" := PId k]}.

Definition fresh : st := State ∅ [] [] [].

(** [Order] is registered and [listener] subscribed. *)
Definition ready : st := State ∅ [listener] ["Order"] [].

Definition fields : list string := ["id"; "status"; "total"].

Definition order_new : inst :=
  ModelInstance 4096
    (<["_state" := PyInt 0]> (<["status" := PyStr "new"]> (<["total" := PyInt 10]> ∅)))
    fields None.

Definition order_saved : inst :=
  ModelInstance 4096
    (<["_state" := PyInt 0]> (<["id" := PyInt 7]>
      (<["status" := PyStr "new"]> (<["total" := PyInt 10]> ∅))))
    fields (Some 7%Z).

Definition order_paid : inst :=
  ModelInstance 4096
    (<["_state" := PyInt 0]> (<["id" := PyInt 7]>
      (<["status" := PyStr "paid"]> (<["total" := PyInt 10]> ∅))))
    fields (Some 7%Z).

(** A model whose only field is a one-to-one primary key [user]: Django
    stores it in [__dict__] under [user_id], so no key of [__dict__] is
    in the whitelist. *)
Definition profile : inst :=
  ModelInstance 8192 (<["_state" := PyInt 0]> (<["user_id" := PyInt 3]> ∅))
    ["user"] (Some 3%Z).

(** [order_paid] as a query with [defer("status")] builds it: the
    deferred field is not in [__dict__] until it is assigned or read. *)
Definition order_deferred : inst :=
  ModelInstance 4096
    (<["_state" := PyInt 0]> (<["id" := PyInt 7]> (<["total" := PyInt 10]> ∅)))
    fields (Some 7%Z).

(** A sensor reading whose [value] is [float('nan')]. *)
Definition reading : inst :=
  ModelInstance 12288
    (<["_state" := PyInt 0]> (<["id" := PyInt 1]> (<["value" := PyNaN]> ∅)))
    ["id"; "value"] (Some 1%Z).

(** [Order] was constructed and saved as [order_saved]. *)
Definition tracked : st :=
  State {[4096%Z := get_attributes order_saved]} [listener] ["Order"] [].

(** As [tracked], with the docstring's subscriber ahead of [listener]. *)
Definition tracked_noisy : st :=
  State {[4096%Z := get_attributes order_saved]} [my_callback; listener] ["Order"] [].

(** As [tracked], with [trimmer] ahead of [listener]. *)
Definition tracked_trimmed : st :=
  State {[4096%Z := get_attributes order_saved]} [trimmer; listener] ["Order"] [].


(** [Reading] is registered, [listener] subscribed, and [reading] was
    constructed. *)
Definition tracked_reading : st :=
  State {[12288%Z := get_attributes reading]} [listener] ["Reading"] [].

(** [Profile] is registered and [listener] subscribed. *)
Definition ready_profile : st := State ∅ [listener] ["Profile"] [].

(** As [ready], with the docstring's subscriber ahead of [listener]. *)
Definition ready_noisy : st := State ∅ [my_callback; listener] ["Order"] [].

(** As [ready], with [trimmer] ahead of [listener]. *)
Definition ready_trimmed : st := State ∅ [trimmer; listener] ["Order"] [].

Definition unexpected_keyword : exn :=
  TypeError "my_callback() got an unexpected keyword argument 'payload'".

(** [order_paid] read again: other bookkeeping in [_state], and a field
    list in another order with a repeated name. *)
Definition order_reloaded : inst :=
  ModelInstance 4096
    (<["_state" := PyInt 1]> (<["id" := PyInt 7]>
      (<["status" := PyStr "paid"]> (<["total" := PyInt 10]> ∅))))
    ["total"; "status"; "id"; "total"] (Some 7%Z).

End Scenario.

(** * Properties *)

Ltac run :=
  unfold mbind, M_bind, bind, mret, M_ret, ret, gets, modify, raise, lift; simpl.

Ltac computed := apply (bool_decide_unpack _); vm_compute; exact I.

Section properties.

Context {Model Value Pk : Type}.
Context `{!EqDecision Model} `{!EqDecision Value}.
Context `{!SelfCompare Value} `{!DictOrder Value}.

Abbreviation state := (@state Model Value Pk).
Abbreviation callback := (@callback Model Value Pk).
Abbreviation model_instance := (@model_instance Value Pk).
Abbreviation payload := (gmap string (@payload_value Value Pk)).
Abbreviation pid := (@PId Value Pk).
Abbreviation pdata := (@PData Value Pk).

Implicit Types (s : state) (cbs : list callback) (sender : Model).
Implicit Types (instance : model_instance) (event : string) (p : payload).
Implicit Types (current previous : gmap string Value).

(** ** Truth values and payloads *)

Lemma truthy_Some current : truthy (Some current) = true ↔ current ≠ ∅.
Proof.
  unfold truthy. rewrite negb_true_iff, Nat.eqb_neq.
  by rewrite map_size_empty_iff.
Qed.

Lemma truthy_false (o : option (gmap string Value)) :
  truthy o = false ↔ o = None ∨ o = Some ∅.
Proof.
  destruct o as [d|]; simpl; [|split; [by left|done]].
  rewrite negb_false_iff, Nat.eqb_eq, map_size_empty_iff.
  split; [intros ->; by right|]. by intros [?|[= ->]].
Qed.

Lemma build_payload_id (k : Pk) o : build_payload k o !! "id" = Some (pid k).
Proof.
  unfold build_payload. destruct o as [d|]; [destruct (truthy _)|].
  - by rewrite lookup_insert_ne, lookup_singleton_eq.
  - by rewrite lookup_singleton_eq.
  - by rewrite lookup_singleton_eq.
Qed.

Lemma build_payload_data (k : Pk) o :
  build_payload k o !! "data" =
    match o with
    | Some d => if decide (d = ∅) then None else Some (pdata d)
    | None => None
    end.
Proof.
  unfold build_payload. destruct o as [d|]; [|by rewrite lookup_singleton_ne].
  destruct (truthy (Some d)) eqn:Ht.
  - apply truthy_Some in Ht. rewrite decide_False by done.
    by rewrite lookup_insert_eq.
  - apply truthy_false in Ht as [?| [= <-]]; [done|].
    rewrite decide_True by done. by rewrite lookup_singleton_ne.
Qed.

Lemma build_payload_empty (k : Pk) :
  build_payload k (Some (∅ : gmap string Value)) = {["id" := pid k]}.
Proof. reflexivity. Qed.

(** ** Python's [!=] *)

Lemma py_ne_true (v w : Value) :
  py_ne v w = true ↔ v ≠ w ∨ unequal_to_itself v = true.
Proof.
  unfold py_ne. destruct (decide (v = w)) as [->|Hne].
  - split; [by right|]. by intros [?|?].
  - split; [by left|done].
Qed.

Lemma py_ne_false (v w : Value) :
  py_ne v w = false ↔ v = w ∧ unequal_to_itself v = false.
Proof.
  unfold py_ne. destruct (decide (v = w)) as [->|Hne].
  - split; [done|]. by intros [_ ?].
  - split; [done|]. by intros [? _].
Qed.

(** ** The subscriber loop *)

Lemma invoke_all_run cbs sender event p (handed : option (gmap string Value)) s :
  invoke_all cbs sender event p handed s =
    (match first_raise cbs sender event p with
     | None => Ok (attributes_after cbs sender event p handed)
     | Some e => Raise e
     end,
     State (_snapshots s) (_callbacks s) (_registered_models s)
       (calls s ++ subscriber_calls cbs sender event p)).
Proof.
  revert s p handed. induction cbs as [|cb rest IH]; intros s p handed; simpl.
  - run. rewrite app_nil_r. by destruct s.
  - run. destruct (raised (cb sender event p)) as [e|] eqn:Hcb; run.
    + done.
    + rewrite IH. simpl. by rewrite <-app_assoc.
Qed.

Lemma publish_run sender event (k : Pk) o s :
  let p := build_payload k o in
  publish sender event k o s =
    (match first_raise (_callbacks s) sender event p with
     | None =>
         Ok (if truthy o then attributes_after (_callbacks s) sender event p o else o)
     | Some e => Raise e
     end,
     State (_snapshots s) (_callbacks s) (_registered_models s)
       (calls s ++ subscriber_calls (_callbacks s) sender event p)).
Proof.
  intros p. unfold publish. run. rewrite invoke_all_run. fold p.
  destruct (first_raise _ _ _ _); [done|]. run.
  by destruct (truthy o).
Qed.

Lemma edit_untouched (handed : option (gmap string Value)) p :
  edit handed (Reply None p None) = handed.
Proof. by destruct handed. Qed.

(** Subscribers that observe: each is called once with the payload as
    built, none raises, and the attributes dictionary is not changed. *)
Lemma observers_run cbs sender event p :
  (∀ cb, cb ∈ cbs → observes cb sender event p) →
  subscriber_calls cbs sender event p = deliveries cbs sender event p ∧
  first_raise cbs sender event p = None ∧
  ∀ handed, attributes_after cbs sender event p handed = handed.
Proof.
  unfold observes. induction cbs as [|cb rest IH]; intros Hq; simpl; [done|].
  rewrite (Hq cb) by left. simpl.
  destruct IH as (-> & -> & Hafter); [intros cb' Hin; apply Hq; by right|].
  split; [done|]. split; [done|]. intros handed.
  by rewrite edit_untouched.
Qed.

(** Subscribers that return, whatever they do to the payload: each is
    called once, in the order of the list. *)
Lemma returning_run cbs sender event :
  (∀ cb p, cb ∈ cbs → raised (cb sender event p) = None) →
  ∀ p, first_raise cbs sender event p = None ∧
       inv_callback <$> subscriber_calls cbs sender event p = cbs.
Proof.
  induction cbs as [|cb rest IH]; intros Hq p; simpl; [done|].
  rewrite (Hq cb p) by left.
  destruct (IH (λ cb' p' Hin, Hq cb' p' (list_elem_of_further _ _ _ Hin))
              (payload_left (cb sender event p))) as [Hf Hc].
  split; [done|]. simpl. f_equal. exact Hc.
Qed.

(** Whatever the subscribers do, the calls go to a prefix of the list,
    for the model class and event given, the first with the payload as
    built. *)
Lemma subscriber_calls_prefix cbs sender event p :
  (inv_callback <$> subscriber_calls cbs sender event p) `prefix_of` cbs.
Proof.
  revert p. induction cbs as [|cb rest IH]; intros p; simpl; [done|].
  destruct (raised (cb sender event p)); simpl.
  - by exists rest.
  - by apply prefix_cons.
Qed.

Lemma subscriber_calls_labels cbs sender event p :
  Forall (λ i, inv_model_class i = sender ∧ inv_event i = event)
    (subscriber_calls cbs sender event p).
Proof.
  revert p. induction cbs as [|cb rest IH]; intros p; simpl; [done|].
  constructor; [done|]. by destruct (raised (cb sender event p)).
Qed.

Lemma subscriber_calls_head cbs sender event p :
  head (inv_payload <$> subscriber_calls cbs sender event p) =
  if decide (cbs = []) then None else Some p.
Proof. by destruct cbs. Qed.




(** ** The delta comprehension *)

Lemma changed_lookup current previous key v :
  changed current previous !! key = Some v ↔
  current !! key = Some v ∧ from_option (py_ne v) true (previous !! key) = true.
Proof. unfold changed. by rewrite map_lookup_filter_Some. Qed.

Lemma changed_subseteq current previous : changed current previous ⊆ current.
Proof. apply map_filter_subseteq. Qed.

Lemma dict_items_lookup current key v :
  (key, v) ∈ dict_items current ↔ current !! key = Some v.
Proof. by rewrite dict_items_perm, elem_of_map_to_list. Qed.

Lemma dict_items_NoDup current : NoDup (dict_items current).*1.
Proof. rewrite dict_items_perm. apply NoDup_fst_map_to_list. Qed.

(** The rounds of the comprehension over a list of items with distinct
    keys. *)
Lemma delta_rounds previous (l : list (string * Value)) :
  NoDup l.*1 →
  match foldl (λ acc kv, delta_step previous kv.1 kv.2 acc) (Ok ∅) l with
  | Ok delta =>
      (∀ key v, (key, v) ∈ l → is_Some (previous !! key)) ∧
      (∀ key v, delta !! key = Some v ↔
         (key, v) ∈ l ∧ from_option (py_ne v) true (previous !! key) = true)
  | Raise e =>
      ∃ key v, e = KeyError key ∧ (key, v) ∈ l ∧ previous !! key = None
  end.
Proof.
  induction l as [|[k x] l IH] using rev_ind; intros Hnd.
  - simpl. split; [intros key v Hin; by apply elem_of_nil in Hin|].
    intros key v. rewrite lookup_empty, elem_of_nil. split; [done|tauto].
  - rewrite fmap_app in Hnd. apply NoDup_app in Hnd as (Hnd & Hfresh & _).
    specialize (IH Hnd). rewrite foldl_snoc. simpl.
    assert (∀ v, (k, v) ∉ l) as Hk.
    { intros v Hin. apply (Hfresh k); [|by left].
      apply list_elem_of_fmap. by exists (k, v). }
    destruct (foldl _ _ l) as [delta|e]; simpl.
    + destruct IH as [Hcov Hdelta].
      destruct (previous !! k) as [old|] eqn:Hold.
      * assert (∀ key v, (key, v) ∈ l ++ [(k, x)] → is_Some (previous !! key)) as Hcov'.
        { intros key v [Hin|Hin]%elem_of_app; [by eapply Hcov|].
          apply list_elem_of_singleton in Hin as [= -> ->]. by rewrite Hold. }
        destruct (py_ne x old) eqn:Hne; (split; [done|]); intros key v;
          rewrite elem_of_app, list_elem_of_singleton.
        -- destruct (decide (key = k)) as [->|Hkey].
           ++ rewrite lookup_insert_eq, Hold. simpl. split.
              ** intros [= <-]. split; [by right|done].
              ** intros [[Hin|[= ->]] _]; [by apply Hk in Hin|done].
           ++ rewrite lookup_insert_ne by done. rewrite Hdelta. split.
              ** intros [Hin Hv]. split; [by left|done].
              ** intros [[Hin|[= -> ->]] Hv]; [done|by destruct Hkey].
        -- rewrite Hdelta. split.
           ++ intros [Hin Hv]. split; [by left|done].
           ++ intros [[Hin|[= -> ->]] Hv]; [done|].
              rewrite Hold in Hv. simpl in Hv. congruence.
      * exists k, x. split; [done|]. split; [|done].
        apply elem_of_app. right. by left.
    + destruct IH as (key & v & -> & Hin & Hnone). exists key, v.
      split; [done|]. split; [|done]. apply elem_of_app. by left.
Qed.

Lemma compute_delta_spec current previous :
  match compute_delta current previous with
  | Ok delta =>
      (∀ key, is_Some (current !! key) → is_Some (previous !! key)) ∧
      delta = changed current previous
  | Raise e =>
      ∃ key, e = KeyError key ∧ is_Some (current !! key) ∧ previous !! key = None
  end.
Proof.
  unfold compute_delta.
  pose proof (delta_rounds previous (dict_items current) (dict_items_NoDup current)) as Hr.
  destruct (foldl _ _ _) as [delta|e].
  - destruct Hr as [Hcov Hdelta]. split.
    + intros key [v Hv]. apply (Hcov key v). by apply dict_items_lookup.
    + apply map_eq. intros key. apply option_eq. intros v.
      by rewrite Hdelta, changed_lookup, dict_items_lookup.
  - destruct Hr as (key & v & -> & Hin & Hnone). exists key.
    split; [done|]. split; [|done]. exists v. by apply dict_items_lookup.
Qed.

Lemma compute_delta_covered current previous :
  (∀ key, is_Some (current !! key) → is_Some (previous !! key)) →
  compute_delta current previous = Ok (changed current previous).
Proof.
  intros Hcov. pose proof (compute_delta_spec current previous) as Hs.
  destruct (compute_delta current previous) as [delta|e].
  - by destruct Hs as [_ ->].
  - destruct Hs as (key & _ & Hin & Hnone). apply Hcov in Hin.
    rewrite Hnone in Hin. by destruct Hin.
Qed.

Lemma compute_delta_uncovered current previous key :
  is_Some (current !! key) → previous !! key = None →
  ∃ key', compute_delta current previous = Raise (KeyError key').
Proof.
  intros Hin Hnone. pose proof (compute_delta_spec current previous) as Hs.
  destruct (compute_delta current previous) as [delta|e].
  - destruct Hs as [Hcov _]. apply Hcov in Hin. rewrite Hnone in Hin. by destruct Hin.
  - destruct Hs as (key' & -> & _). by exists key'.
Qed.

(** Over a snapshot with the same entries, the changed entries are the
    ones whose value is not equal to itself. *)
Lemma changed_same previous :
  changed previous previous = filter (λ kv, unequal_to_itself kv.2 = true) previous.
Proof.
  unfold changed. apply map_filter_ext. intros key v Hv. simpl.
  rewrite Hv. simpl. unfold py_ne. by rewrite decide_True.
Qed.

Lemma changed_same_empty previous :
  (∀ key v, previous !! key = Some v → unequal_to_itself v = false) →
  changed previous previous = ∅.
Proof.
  intros Heq. rewrite changed_same. apply map_eq. intros key.
  rewrite lookup_empty. apply eq_None_not_Some. intros [v Hv].
  apply map_lookup_filter_Some in Hv as [Hv Hself]. simpl in Hself.
  by rewrite (Heq key v Hv) in Hself.
Qed.

(** ** What the subscribers are taken to do *)

Lemma observing_returns s : subscribers_observe s → subscribers_return s.
Proof.
  intros Hobs cb model_class event p Hin.
  by rewrite (Hobs cb model_class event p Hin).
Qed.

Lemma observing_run s sender event p :
  subscribers_observe s →
  subscriber_calls (_callbacks s) sender event p = deliveries (_callbacks s) sender event p ∧
  first_raise (_callbacks s) sender event p = None ∧
  ∀ handed, attributes_after (_callbacks s) sender event p handed = handed.
Proof. intros Hobs. apply observers_run. intros cb Hin. by apply Hobs. Qed.

Lemma returning_state_run s sender event p :
  subscribers_return s →
  first_raise (_callbacks s) sender event p = None ∧
  inv_callback <$> subscriber_calls (_callbacks s) sender event p = _callbacks s.
Proof. intros Hret. apply returning_run. intros cb p' Hin. by apply Hret. Qed.


(** ** The hooks, run *)

Lemma post_save_unregistered sender instance created s :
  sender ∉ _registered_models s →
  post_save_callback sender instance created s = (Ok tt, s).
Proof.
  intros Hout. unfold post_save_callback. run. by rewrite decide_True.
Qed.

Lemma post_save_created sender instance s :
  sender ∈ _registered_models s →
  let attributes := get_attributes instance in
  let p := build_payload (pk instance) (Some attributes) in
  let seen := calls s ++ subscriber_calls (_callbacks s) sender "create" p in
  post_save_callback sender instance true s =
    match first_raise (_callbacks s) sender "create" p with
    | None =>
        (Ok tt,
         State (<[py_id instance :=
                    attributes_published (_callbacks s) sender "create" (pk instance)
                      attributes]> (_snapshots s))
           (_callbacks s) (_registered_models s) seen)
    | Some e =>
        (Raise e, State (_snapshots s) (_callbacks s) (_registered_models s) seen)
    end.
Proof.
  intros Hreg attributes p seen. unfold post_save_callback. run.
  rewrite decide_False by (intros Hn; by apply Hn).
  run. rewrite publish_run. fold attributes p seen.
  destruct (first_raise _ _ _ _); [done|]. run.
  unfold attributes_published, truthy. fold attributes p.
  by destruct (negb _).
Qed.

Lemma post_save_no_snapshot sender instance s :
  sender ∈ _registered_models s →
  truthy (_snapshots s !! py_id instance) = false →
  post_save_callback sender instance false s = (Raise snapshot_not_found, s).
Proof.
  intros Hreg Hfalse. unfold post_save_callback. run.
  rewrite decide_False by (intros Hn; by apply Hn).
  run. by rewrite Hfalse.
Qed.

Lemma post_save_update sender instance previous s :
  sender ∈ _registered_models s →
  _snapshots s !! py_id instance = Some previous →
  previous ≠ ∅ →
  let attributes := get_attributes instance in
  post_save_callback sender instance false s =
    match compute_delta attributes previous with
    | Raise e => (Raise e, s)
    | Ok delta =>
        let p := build_payload (pk instance) (Some delta) in
        let seen := calls s ++ subscriber_calls (_callbacks s) sender "update" p in
        match first_raise (_callbacks s) sender "update" p with
        | None =>
            (Ok tt, State (<[py_id instance := attributes]> (_snapshots s))
                      (_callbacks s) (_registered_models s) seen)
        | Some e =>
            (Raise e, State (_snapshots s) (_callbacks s) (_registered_models s) seen)
        end
    end.
Proof.
  intros Hreg Hprev Hne attributes. unfold post_save_callback. run.
  rewrite decide_False by (intros Hn; by apply Hn).
  run. rewrite Hprev. apply truthy_Some in Hne. rewrite Hne. simpl.
  fold attributes. destruct (compute_delta attributes previous) as [delta|e]; run.
  - rewrite publish_run. by destruct (first_raise _ _ _ _).
  - done.
Qed.

Lemma usable_snapshot_covers current previous :
  usable_snapshot current previous →
  ∀ key, is_Some (current !! key) → is_Some (previous !! key).
Proof.
  intros [_ Hdom] key Hin. apply elem_of_dom, Hdom. by apply elem_of_dom.
Qed.

Lemma not_usable_snapshot current previous :
  ¬ usable_snapshot current previous →
  previous = ∅ ∨ ∃ key, is_Some (current !! key) ∧ previous !! key = None.
Proof.
  intros Hnot. destruct (decide (previous = ∅)) as [|Hne]; [by left|right].
  destruct (decide (map_Forall (λ key _, is_Some (previous !! key)) current))
    as [Hall|Hex].
  - destruct Hnot. split; [done|]. intros key [v Hv]%elem_of_dom.
    apply elem_of_dom. by apply (Hall key v).
  - apply map_not_Forall in Hex; [|apply _].
    destruct Hex as (key & v & Hv & Hout). exists key.
    split; [by rewrite Hv|]. by apply eq_None_not_Some.
Qed.

(** ** Updates (claims C1, C2, C4, C10) *)

(** What a save observed as not newly created does over a usable
    snapshot: it publishes the delta, and stores the current attributes
    unless a subscriber raises. *)
Lemma post_save_update_usable sender instance previous s :
  sender ∈ _registered_models s →
  _snapshots s !! py_id instance = Some previous →
  usable_snapshot (get_attributes instance) previous →
  let attributes := get_attributes instance in
  let p := build_payload (pk instance) (Some (changed attributes previous)) in
  let seen := calls s ++ subscriber_calls (_callbacks s) sender "update" p in
  post_save_callback sender instance false s =
    match first_raise (_callbacks s) sender "update" p with
    | None =>
        (Ok tt, State (<[py_id instance := attributes]> (_snapshots s))
                  (_callbacks s) (_registered_models s) seen)
    | Some e =>
        (Raise e, State (_snapshots s) (_callbacks s) (_registered_models s) seen)
    end.
Proof.
  intros Hreg Hprev Huse attributes p seen.
  rewrite (post_save_update sender instance previous) by (done || apply Huse).
  by rewrite compute_delta_covered by by apply usable_snapshot_covers.
Qed.

(** C1 (amended): for a registered instance whose stored snapshot is not
    empty and has every key of the current attributes, a save observed
    as not newly created publishes an ["update"] event.  The delta handed
    to [publish] has exactly the keys of the current attributes whose
    value compares unequal, under Python's [!=], to the value the
    snapshot holds under the key, with their current values; the payload
    built from it holds the primary key, and the delta as its ["data"]
    unless the delta is empty.  The subscribers are called in order, up
    to the first that raises, the first of them with that payload; when
    every subscriber returns and leaves the payload as it got it, the
    save returns and each subscriber has been called once with that
    payload. *)
Theorem update_publishes_exact_delta sender instance previous s :
  sender ∈ _registered_models s →
  _snapshots s !! py_id instance = Some previous →
  usable_snapshot (get_attributes instance) previous →
  ∃ delta,
    let p := build_payload (pk instance) (Some delta) in
    let r := post_save_callback sender instance false s in
    (∀ key v, delta !! key = Some v ↔
       get_attributes instance !! key = Some v ∧
       ∃ old, previous !! key = Some old ∧ py_ne v old = true) ∧
    p !! "id" = Some (pid (pk instance)) ∧
    p !! "data" = (if decide (delta = ∅) then None else Some (pdata delta)) ∧
    calls r.2 = calls s ++ subscriber_calls (_callbacks s) sender "update" p ∧
    (subscribers_observe s →
     r.1 = Ok tt ∧
     calls r.2 = calls s ++ deliveries (_callbacks s) sender "update" p).
Proof.
  intros Hreg Hprev Huse.
  exists (changed (get_attributes instance) previous). cbv zeta.
  split.
  { intros key v. rewrite changed_lookup. split.
    - intros [Hv Hne]. split; [done|].
      destruct (usable_snapshot_covers _ _ Huse key) as [old Hold]; [by rewrite Hv|].
      exists old. split; [done|]. by rewrite Hold in Hne.
    - intros [Hv (old & Hold & Hne)]. split; [done|]. by rewrite Hold. }
  split; [apply build_payload_id|].
  split; [apply (build_payload_data (pk instance) (Some _))|].
  rewrite (post_save_update_usable sender instance previous) by done.
  split.
  - by destruct (first_raise _ _ _ _).
  - intros Hobs.
    destruct (observing_run s sender "update"
      (build_payload (pk instance) (Some (changed (get_attributes instance) previous)))
      Hobs) as (Hc & Hf & _).
    by rewrite Hf, Hc.
Qed.

(** C2 (amended): when no subscriber raises, a save of a registered
    instance observed as not newly created raises if and only if the
    store has no snapshot under the instance's handle, or has one that is
    empty or lacks a key of the current attributes; when it raises, no
    event is published and the state is what it was. *)
Theorem update_raises_iff_no_usable_snapshot sender instance s :
  sender ∈ _registered_models s →
  subscribers_return s →
  let r := post_save_callback sender instance false s in
  (raises r.1 ↔
     _snapshots s !! py_id instance = None ∨
     ∃ previous, _snapshots s !! py_id instance = Some previous ∧
                 ¬ usable_snapshot (get_attributes instance) previous) ∧
  (raises r.1 → r.2 = s).
Proof.
  intros Hreg Hq r. subst r.
  destruct (_snapshots s !! py_id instance) as [previous|] eqn:Hprev.
  - destruct (decide (usable_snapshot (get_attributes instance) previous)) as [Huse|Hnot].
    + rewrite (post_save_update_usable sender instance previous) by done.
      destruct (returning_state_run s sender "update"
        (build_payload (pk instance) (Some (changed (get_attributes instance) previous)))
        Hq) as [-> _].
      simpl. split; [|done]. split; [done|].
      intros [[=]|(previous' & [= <-] & Hnot)]. by apply Hnot.
    + assert (∃ e, post_save_callback sender instance false s = (Raise e, s)) as [e ->].
      { destruct (not_usable_snapshot _ _ Hnot) as [->|(key & Hin & Hnone)].
        - exists snapshot_not_found. apply post_save_no_snapshot; [done|].
          rewrite Hprev. by apply truthy_false; right.
        - destruct (decide (previous = ∅)) as [->|Hne].
          + exists snapshot_not_found. apply post_save_no_snapshot; [done|].
            rewrite Hprev. by apply truthy_false; right.
          + rewrite (post_save_update sender instance previous) by done.
            destruct (compute_delta_uncovered _ _ _ Hin Hnone) as [key' ->].
            by eexists. }
      simpl. split; [|done]. split; [|done]. intros _. right. by exists previous.
  - rewrite post_save_no_snapshot; [|done|by rewrite Hprev].
    simpl. split; [|done]. split; [|done]. intros _. by left.
Qed.

(** C4 (amended): for a registered instance whose stored snapshot is not
    empty, a save observed as not newly created when the current
    attributes are the stored ones, and each of their values is equal to
    itself under Python's [==], publishes an ["update"] event whose
    payload is [{"id": pk}], with no ["data"] key.  The subscribers are
    called in order, up to the first that raises, the first of them with
    that payload; when every subscriber returns and leaves the payload
    as it got it, the save returns, each subscriber has been called once
    with that payload, and the store is what it was. *)
Theorem unchanged_update_has_no_data sender instance s :
  sender ∈ _registered_models s →
  _snapshots s !! py_id instance = Some (get_attributes instance) →
  get_attributes instance ≠ ∅ →
  (∀ key v, get_attributes instance !! key = Some v → unequal_to_itself v = false) →
  let p : payload := {["id" := pid (pk instance)]} in
  let r := post_save_callback sender instance false s in
  p !! "id" = Some (pid (pk instance)) ∧
  p !! "data" = None ∧
  calls r.2 = calls s ++ subscriber_calls (_callbacks s) sender "update" p ∧
  (subscribers_observe s →
   r = (Ok tt, State (_snapshots s) (_callbacks s) (_registered_models s)
                 (calls s ++ deliveries (_callbacks s) sender "update" p))).
Proof.
  intros Hreg Hprev Hne Hself p r. subst r.
  assert (usable_snapshot (get_attributes instance) (get_attributes instance))
    as Huse by by split.
  pose proof (post_save_update_usable sender instance _ s Hreg Hprev Huse) as Hrun.
  cbv zeta in Hrun. rewrite changed_same_empty, build_payload_empty in Hrun by done.
  fold p in Hrun.
  split; [by apply lookup_singleton_eq|].
  split; [by apply lookup_singleton_ne|].
  split.
  - rewrite Hrun. by destruct (first_raise _ _ _ _).
  - intros Hobs. rewrite Hrun.
    destruct (observing_run s sender "update" p Hobs) as (-> & -> & _).
    by rewrite insert_id.
Qed.

(** C10: when the save of a registered instance observed as not newly
    created finds no snapshot under the instance's handle, or an empty
    one, the hook raises and leaves the whole state as it was: the
    snapshot store is unchanged, so the current attributes are not
    stored, and no subscriber is called. *)
Theorem missing_snapshot_raise_is_atomic sender instance s :
  sender ∈ _registered_models s →
  _snapshots s !! py_id instance = None ∨ _snapshots s !! py_id instance = Some ∅ →
  post_save_callback sender instance false s = (Raise snapshot_not_found, s).
Proof.
  intros Hreg Hmiss. apply post_save_no_snapshot; [done|].
  by apply truthy_false.
Qed.

(** ** Creation (claim C3) *)

Lemma get_attributes_lookup instance key v :
  get_attributes instance !! key = Some v ↔
  __dict__ instance !! key = Some v ∧ key ∈ _meta_fields instance.
Proof. unfold get_attributes. by rewrite map_lookup_filter_Some. Qed.

Lemma post_init_registered sender instance s :
  sender ∈ _registered_models s →
  post_init_callback sender instance s =
    (Ok tt, State (<[py_id instance := get_attributes instance]> (_snapshots s))
              (_callbacks s) (_registered_models s) (calls s)).
Proof.
  intros Hreg. unfold post_init_callback. run.
  by rewrite decide_False by (intros Hn; by apply Hn).
Qed.

(** C3 (amended): for a registered model type, constructing an instance
    ([instance0] is the object as [__init__] left it, [instance] the same
    object when it is saved) and then saving it with the newly-created
    flag set makes no call at construction and then calls the subscribers
    in order with a ["create"] event, up to the first that raises.  The
    payload built for the event holds the primary key, and its ["data"]
    is the full current attribute set (the entries of [__dict__] under
    the whitelisted names) when that set is not empty; when it is empty
    the payload has no ["data"] key.  The first subscriber gets that
    payload; when every subscriber returns and leaves the payload as it
    got it, the save returns and every subscriber has got exactly one
    ["create"] event with that payload. *)
Theorem create_publishes_full_attributes sender instance0 instance s :
  sender ∈ _registered_models s →
  let attributes := get_attributes instance in
  let p := build_payload (pk instance) (Some attributes) in
  let s1 := (post_init_callback sender instance0 s).2 in
  let r := post_save_callback sender instance true s1 in
  (post_init_callback sender instance0 s).1 = Ok tt ∧
  calls s1 = calls s ∧
  p !! "id" = Some (pid (pk instance)) ∧
  p !! "data" = (if decide (attributes = ∅) then None else Some (pdata attributes)) ∧
  (∀ key v, attributes !! key = Some v ↔
     __dict__ instance !! key = Some v ∧ key ∈ _meta_fields instance) ∧
  calls r.2 = calls s ++ subscriber_calls (_callbacks s) sender "create" p ∧
  (subscribers_observe s →
   r.1 = Ok tt ∧ calls r.2 = calls s ++ deliveries (_callbacks s) sender "create" p).
Proof.
  intros Hreg attributes p s1 r. subst s1 r.
  rewrite (post_init_registered sender instance0 s Hreg). simpl.
  split; [done|]. split; [done|].
  split; [apply build_payload_id|].
  split; [apply (build_payload_data (pk instance) (Some _))|].
  split; [apply get_attributes_lookup|].
  rewrite post_save_created by done. cbn [_callbacks _snapshots calls].
  fold attributes p.
  split.
  - by destruct (first_raise _ _ _ _).
  - intros Hobs.
    destruct (observing_run s sender "create" p Hobs) as (Hc & Hf & _).
    by rewrite Hf, Hc.
Qed.

(** ** The snapshot after a save (claim C5) *)


(** ** Delivery (claim C6) *)

(** C6 (amended): the payload [publish] builds holds the primary key
    under ["id"], and has a ["data"] key if and only if [attributes] is a
    non-empty dictionary, in which case ["data"] is that dictionary.  A
    call to [publish] in which no subscriber raises returns after calling
    every registered callback exactly once, in the order of [_callbacks],
    which is the order in which [add_callback] appended them, each with
    the [model_class] and [event] given; when moreover every subscriber
    leaves the payload as it got it, each is called with the payload as
    built, and the module globals and the attributes dictionary are what
    they were. *)
Theorem publish_calls_every_subscriber_once sender event (k : Pk) o s :
  let p := build_payload k o in
  let r := publish sender event k o s in
  p !! "id" = Some (pid k) ∧
  (∀ x, p !! "data" = Some x ↔ ∃ d, o = Some d ∧ d ≠ ∅ ∧ x = PData d) ∧
  (subscribers_return s →
   returns r.1 ∧
   ∃ new, calls r.2 = calls s ++ new ∧
          inv_callback <$> new = _callbacks s ∧
          Forall (λ i, inv_model_class i = sender ∧ inv_event i = event) new) ∧
  ((∀ cb, cb ∈ _callbacks s → observes cb sender event p) →
   r = (Ok o, State (_snapshots s) (_callbacks s) (_registered_models s)
                (calls s ++ deliveries (_callbacks s) sender event p))) ∧
  (∀ cb, add_callback cb s =
     (Ok tt, State (_snapshots s) (_callbacks s ++ [cb]) (_registered_models s) (calls s))).
Proof.
  intros p r. subst r.
  split; [apply build_payload_id|].
  split.
  { intros x. unfold p. rewrite build_payload_data. destruct o as [d|].
    + destruct (decide (d = ∅)) as [->|Hne].
      * split; [done|]. by intros (d & [= <-] & Hne & _).
      * split.
        -- intros [= <-]. by exists d.
        -- by intros (d' & [= <-] & _ & ->).
    + split; [done|]. by intros (d & [=] & _). }
  rewrite publish_run. fold p.
  split; [|split; [|done]].
  - intros Hret. destruct (returning_state_run s sender event p Hret) as [-> Hc].
    split; [done|]. eexists. split; [reflexivity|]. split; [done|].
    apply subscriber_calls_labels.
  - intros Hobs.
    destruct (observers_run (_callbacks s) sender event p Hobs) as (-> & -> & Hafter).
    rewrite Hafter. by destruct (truthy o).
Qed.

(** ** Unregistered senders (claim C7) *)

(** C7: for a model type that is not in [_registered_models], each of
    the three signal receivers returns without raising and leaves the
    whole state as it was: no subscriber is called and the snapshot
    store is untouched. *)
Theorem unregistered_hooks_are_noops sender instance created s :
  sender ∉ _registered_models s →
  post_init_callback sender instance s = (Ok tt, s) ∧
  post_save_callback sender instance created s = (Ok tt, s) ∧
  post_delete_callback sender instance s = (Ok tt, s).
Proof.
  intros Hnot.
  unfold post_init_callback, post_save_callback, post_delete_callback. run.
  by rewrite !decide_True by done.
Qed.

(** ** Unregistering (claim C8) *)

Lemma list_remove_None (x : Model) (l : list Model) :
  list_remove x l = None ↔ x ∉ l.
Proof.
  induction l as [|y l IH]; simpl.
  - split; [intros _; apply not_elem_of_nil|done].
  - rewrite not_elem_of_cons. destruct (decide (y = x)) as [->|Hne].
    + split; [done|]. by intros [? _].
    + destruct (list_remove x l) as [r|].
      * split; [done|]. intros [_ Hl]. by apply IH in Hl.
      * split; [|done]. intros _. split; [done|]. by apply IH.
Qed.

(** C8 (amended): for a model type that is not in [_registered_models],
    [unregister] raises the [ValueError] of [list.remove] and leaves the
    registered list, and the rest of the state, as it was. *)
Theorem unregister_absent_raises sender s :
  sender ∉ _registered_models s →
  unregister sender s = (Raise (ValueError "list.remove(x): x not in list"), s).
Proof.
  intros Hnot. unfold unregister. run.
  apply list_remove_None in Hnot. by rewrite Hnot.
Qed.

(** ** The destructor (claim C9) *)

(** C9: the closure handed to [weakref.ref] never raises; when the store
    has no snapshot under the instance's handle it leaves the state as it
    was, otherwise it deletes that snapshot and nothing else; and running
    it twice leaves the state that running it once leaves. *)
Theorem destructor_is_defensive instance s :
  (destructor instance s).1 = Ok tt ∧
  (_snapshots s !! py_id instance = None → destructor instance s = (Ok tt, s)) ∧
  _snapshots (destructor instance s).2 = delete (py_id instance) (_snapshots s) ∧
  (destructor instance;; destructor instance) s = destructor instance s.
Proof.
  unfold destructor. run.
  destruct (decide (is_Some (_snapshots s !! py_id instance))) as [Hin|Hout]; run.
  - split; [done|]. split; [intros Hnone; rewrite Hnone in Hin; by destruct Hin|].
    split; [done|].
    rewrite decide_False; [done|]. rewrite lookup_delete_eq. by intros [? ?].
  - split; [done|]. split; [done|].
    split; [|by rewrite decide_False].
    symmetry. apply delete_id. by apply eq_None_not_Some.
Qed.

(** * Further properties of the module *)

(** ** The registry: [register] and [unregister] *)

Lemma list_remove_Some (x : Model) (l : list Model) :
  x ∈ l →
  ∃ l1 l2, l = l1 ++ x :: l2 ∧ (x ∉ l1) ∧ list_remove x l = Some (l1 ++ l2).
Proof.
  induction l as [|y l IH]; intros Hin; [by apply elem_of_nil in Hin|].
  simpl. destruct (decide (y = x)) as [->|Hne].
  - exists [], l. split; [done|]. split; [apply not_elem_of_nil|done].
  - apply elem_of_cons in Hin as [->|Hin]; [done|].
    destruct (IH Hin) as (l1 & l2 & -> & Hl1 & ->).
    exists (y :: l1), l2. split; [done|]. split; [|done].
    apply not_elem_of_cons. split; [congruence|done].
Qed.

Lemma list_remove_snoc_fresh (x : Model) (l : list Model) :
  x ∉ l → list_remove x (l ++ [x]) = Some l.
Proof.
  induction l as [|y l IH]; intros Hout; simpl.
  - by rewrite decide_True.
  - apply not_elem_of_cons in Hout as [Hne Hout].
    rewrite decide_False by congruence. by rewrite IH.
Qed.

Lemma list_remove_Permutation (x : Model) (l l' : list Model) :
  list_remove x l = Some l' → l ≡ₚ x :: l'.
Proof.
  revert l'. induction l as [|y l IH]; intros l'; simpl; [done|].
  destruct (decide (y = x)) as [->|Hne].
  - by intros [= ->].
  - destruct (list_remove x l) as [r|]; [|done]. intros [= <-].
    rewrite (IH r eq_refl). apply Permutation_swap.
Qed.

(** X1: [unregister] of a registered model returns and drops exactly the
    first occurrence of the model in [_registered_models], keeping the
    other entries in their order; nothing else of the state changes. *)
Theorem unregister_removes_first_occurrence sender s :
  sender ∈ _registered_models s →
  ∃ l1 l2,
    _registered_models s = l1 ++ sender :: l2 ∧
    (sender ∉ l1) ∧
    unregister sender s =
      (Ok tt, State (_snapshots s) (_callbacks s) (l1 ++ l2) (calls s)).
Proof.
  intros Hin. destruct (list_remove_Some _ _ Hin) as (l1 & l2 & Hl & Hl1 & Hrm).
  exists l1, l2. split; [done|]. split; [done|].
  unfold unregister. run. by rewrite Hrm.
Qed.

(** X2: [register] followed by [unregister] of the same model never
    raises and leaves a registered list with the same entries as before
    (a permutation of it), the very same list when the model was not
    registered before; snapshots, subscribers and the call log are
    untouched. *)
Theorem register_then_unregister_restores sender s :
  ∃ l',
    (register sender;; unregister sender) s =
      (Ok tt, State (_snapshots s) (_callbacks s) l' (calls s)) ∧
    l' ≡ₚ _registered_models s ∧
    (sender ∉ _registered_models s → l' = _registered_models s).
Proof.
  unfold register, unregister. run.
  destruct (list_remove sender (_registered_models s ++ [sender])) as [l'|] eqn:Hrm.
  - exists l'. split; [done|]. split.
    + apply list_remove_Permutation in Hrm.
      rewrite <-Permutation_cons_append in Hrm.
      by apply (inj (cons sender)) in Hrm.
    + intros Hout. rewrite list_remove_snoc_fresh in Hrm by done. by injection Hrm.
  - apply list_remove_None in Hrm. destruct Hrm.
    apply elem_of_app. right. by left.
Qed.

(** X3: registration is not deduplicated: after a model is registered
    twice, one [unregister] returns and the model is still registered, so
    its instances are still snapshotted at construction. *)
Theorem double_registration_survives_unregister sender instance s :
  let r := (register sender;; register sender;; unregister sender) s in
  r.1 = Ok tt ∧
  sender ∈ _registered_models r.2 ∧
  _snapshots (post_init_callback sender instance r.2).2 !! py_id instance =
    Some (get_attributes instance).
Proof.
  intros r.
  assert (sender ∈ (_registered_models s ++ [sender]) ++ [sender]) as Hin.
  { apply elem_of_app. right. by left. }
  destruct (list_remove_Some _ _ Hin) as (l1 & l2 & Hl & Hl1 & Hrm).
  assert (sender ∈ l1 ++ l2) as Hstill.
  { assert (sender ∈ _registered_models s ++ [sender]) as Hin' by
      (apply elem_of_app; right; by left).
    destruct l2 as [|y l2 _] using rev_ind.
    - apply app_inj_tail in Hl as [Hl _]. rewrite <-Hl in Hl1. by destruct Hl1.
    - apply elem_of_app. right. apply elem_of_app.
      rewrite app_comm_cons, app_assoc in Hl.
      apply app_inj_tail in Hl as [_ <-]. right. by left. }
  assert (r = (Ok tt, State (_snapshots s) (_callbacks s) (l1 ++ l2) (calls s))) as ->.
  { subst r. unfold register, unregister. run. by rewrite Hrm. }
  split; [done|]. split; [done|].
  rewrite post_init_registered by done. apply lookup_insert_eq.
Qed.

(** X4: once the only registration of a model is removed, its hooks are
    silent: a save after [unregister] returns, calls no subscriber and
    keeps the snapshot store as it was (the snapshots of the model's
    instances are neither updated nor dropped). *)
Theorem unregister_silences_hooks sender instance created l1 l2 s :
  _registered_models s = l1 ++ sender :: l2 →
  sender ∉ l1 → sender ∉ l2 →
  (unregister sender;; post_save_callback sender instance created) s =
    (Ok tt, State (_snapshots s) (_callbacks s) (l1 ++ l2) (calls s)).
Proof.
  intros Hl Hl1 Hl2.
  assert (sender ∈ _registered_models s) as Hin.
  { rewrite Hl. apply elem_of_app. right. by left. }
  destruct (list_remove_Some _ _ Hin) as (k1 & k2 & Hk & Hk1 & Hrm).
  assert (k1 = l1 ∧ k2 = l2) as [-> ->].
  { rewrite Hl in Hk. clear -Hk Hl1 Hk1. revert k1 Hk Hk1.
    induction l1 as [|y l1 IH]; intros [|z k1] Hk Hk1; simplify_eq/=.
    - done.
    - apply not_elem_of_cons in Hk1 as [? _]. done.
    - apply not_elem_of_cons in Hl1 as [? _]. done.
    - apply not_elem_of_cons in Hl1 as [_ Hl1].
      apply not_elem_of_cons in Hk1 as [_ Hk1].
      destruct (IH Hl1 k1) as [-> ->]; done. }
  unfold unregister, post_save_callback. run. rewrite Hrm. run.
  rewrite decide_True; [done|]. by apply not_elem_of_app.
Qed.

(** X5: a model registered only after an instance was constructed has no
    snapshot of it: the construction hook did nothing, and the first save
    observed as not newly created raises, leaving only the registration
    behind. *)
Theorem late_registration_makes_update_raise sender instance s :
  sender ∉ _registered_models s →
  _snapshots s !! py_id instance = None →
  (post_init_callback sender instance;; register sender;;
   post_save_callback sender instance false) s =
    (Raise snapshot_not_found,
     State (_snapshots s) (_callbacks s) (_registered_models s ++ [sender]) (calls s)).
Proof.
  intros Hout Hnone.
  unfold post_init_callback at 1. run. rewrite decide_True by done.
  unfold register. run.
  apply (post_save_no_snapshot sender instance
           (State (_snapshots s) (_callbacks s) (_registered_models s ++ [sender]) (calls s))).
  - apply elem_of_app. right. by left.
  - simpl. by rewrite Hnone.
Qed.

(** ** The publisher: [add_callback] and [publish] *)





(** ** The delta comprehension, further *)

(** X9: an update event is enough to replay the change: laying the delta
    over the previous snapshot gives back the current value of every
    current key, and the current attributes themselves when both
    snapshots have the same keys. *)
Theorem delta_replays_onto_previous current previous delta :
  compute_delta current previous = Ok delta →
  (∀ key, is_Some (current !! key) → (delta ∪ previous) !! key = current !! key) ∧
  (dom current = dom previous → delta ∪ previous = current).
Proof.
  intros Hd. pose proof (compute_delta_spec current previous) as Hs.
  rewrite Hd in Hs. destruct Hs as [Hcov ->].
  assert (∀ key, is_Some (current !! key) →
            (changed current previous ∪ previous) !! key = current !! key) as Hkey.
  { intros key [v Hv]. rewrite Hv.
    destruct (changed current previous !! key) as [w|] eqn:Hw.
    - pose proof (proj1 (changed_lookup _ _ _ _) Hw) as [Hw' _].
      assert (w = v) as -> by congruence.
      apply lookup_union_Some_raw. by left.
    - apply lookup_union_Some_raw. right. split; [done|].
      destruct (Hcov key) as [old Hold]; [by rewrite Hv|]. rewrite Hold.
      destruct (py_ne v old) eqn:Hne.
      + assert (changed current previous !! key = Some v) as Hin.
        { apply changed_lookup. split; [done|]. by rewrite Hold. }
        congruence.
      + apply py_ne_false in Hne as [-> _]. done. }
  split; [done|]. intros Hdom. apply map_eq. intros key.
  destruct (current !! key) as [v|] eqn:Hv.
  - rewrite <-Hv. apply Hkey. by rewrite Hv.
  - apply lookup_union_None. split.
    + apply eq_None_not_Some. intros [w Hw].
      apply changed_lookup in Hw as [Hw _]. congruence.
    + apply not_elem_of_dom. rewrite <-Hdom. by apply not_elem_of_dom.
Qed.

(** X10: the delta is empty exactly when every current entry is in the
    previous snapshot and holds a value that is equal to itself under
    Python's [==]; a key that has disappeared from the current
    attributes is therefore never reported, and an entry whose value is
    not equal to itself, such as [float('nan')], always is. *)
Theorem delta_empty_iff_nothing_changed current previous :
  compute_delta current previous = Ok ∅ ↔
  current ⊆ previous ∧
  ∀ key v, current !! key = Some v → unequal_to_itself v = false.
Proof.
  rewrite map_subseteq_spec. split.
  - intros Hd. pose proof (compute_delta_spec current previous) as Hs.
    rewrite Hd in Hs. destruct Hs as [Hcov Hch].
    assert (∀ key v, current !! key = Some v →
              previous !! key = Some v ∧ unequal_to_itself v = false) as Hboth.
    { intros key v Hv.
      destruct (Hcov key) as [old Hold]; [by rewrite Hv|].
      destruct (py_ne v old) eqn:Hne.
      - assert (changed current previous !! key = Some v) as Hin.
        { apply changed_lookup. split; [done|]. by rewrite Hold. }
        rewrite <-Hch in Hin. by rewrite lookup_empty in Hin.
      - apply py_ne_false in Hne as [-> Hself]. done. }
    split; intros key v Hv; by destruct (Hboth key v Hv).
  - intros [Hsub Hself]. rewrite compute_delta_covered.
    + f_equal. apply map_eq. intros key. rewrite lookup_empty.
      apply eq_None_not_Some. intros [v Hv].
      apply changed_lookup in Hv as [Hc Hp].
      rewrite (Hsub key v Hc) in Hp. simpl in Hp.
      apply py_ne_true in Hp as [Hne|Hs]; [done|].
      by rewrite (Hself key v Hc) in Hs.
    + intros key [v Hv]. exists v. by apply Hsub.
Qed.

(** X11: the delta comprehension raises exactly when some current key is
    missing from the previous snapshot, and what it raises is the
    [KeyError] of such a key. *)
Theorem delta_raises_iff_key_missing current previous :
  (raises (compute_delta current previous) ↔ ¬ dom current ⊆ dom previous) ∧
  (∀ e, compute_delta current previous = Raise e →
        ∃ key, e = KeyError key ∧ key ∈ dom current ∧ key ∉ dom previous).
Proof.
  pose proof (compute_delta_spec current previous) as Hs.
  destruct (compute_delta current previous) as [delta|e]; simpl.
  - destruct Hs as [Hcov _]. split; [|done]. split; [done|].
    intros Hnot. apply Hnot. intros key Hin%elem_of_dom.
    by apply elem_of_dom, Hcov.
  - destruct Hs as (key & -> & Hin & Hnone).
    apply elem_of_dom in Hin. apply not_elem_of_dom in Hnone. split.
    + split; [|done]. intros _ Hsub. by apply Hnone, Hsub.
    + intros e [= <-]. by exists key.
Qed.

(** ** What a hook may change *)

(** Every run of the save hook has this shape: the subscribers and the
    registry are kept, the store is kept or gets an entry under the
    instance's handle, and the log grows by the calls of one run of the
    subscriber loop, for a payload built from a part of the current
    attributes. *)
Lemma post_save_shape sender instance created s :
  ∃ snaps' new,
    (post_save_callback sender instance created s).2 =
      State snaps' (_callbacks s) (_registered_models s) (calls s ++ new) ∧
    (snaps' = _snapshots s ∨
     ∃ stored, snaps' = <[py_id instance := stored]> (_snapshots s)) ∧
    (new = [] ∨
     ∃ d0, d0 ⊆ get_attributes instance ∧
           new = subscriber_calls (_callbacks s) sender
                   (if created then "create" else "update")
                   (build_payload (pk instance) (Some d0))).
Proof.
  assert (∃ snaps' new,
            s = State snaps' (_callbacks s) (_registered_models s) (calls s ++ new) ∧
            (snaps' = _snapshots s ∨
             ∃ stored, snaps' = <[py_id instance := stored]> (_snapshots s)) ∧
            (new = [] ∨
             ∃ d0, d0 ⊆ get_attributes instance ∧
                   new = subscriber_calls (_callbacks s) sender
                           (if created then "create" else "update")
                           (build_payload (pk instance) (Some d0)))) as Hquiet.
  { exists (_snapshots s), []. rewrite app_nil_r.
    split; [by destruct s|]. split; by left. }
  destruct (decide (sender ∈ _registered_models s)) as [Hreg|Hout];
    [|by rewrite post_save_unregistered].
  destruct created.
  - rewrite post_save_created by done.
    destruct (first_raise _ _ _ _); eexists _, _;
      (split; [reflexivity|]); (split; [by (left + (right; eexists))|]);
      right; by exists (get_attributes instance).
  - destruct (_snapshots s !! py_id instance) as [previous|] eqn:Hprev.
    + destruct (decide (previous = ∅)) as [->|Hne].
      * by rewrite post_save_no_snapshot by (done || by rewrite Hprev).
      * rewrite (post_save_update sender instance previous) by done.
        pose proof (compute_delta_spec (get_attributes instance) previous) as Hs.
        destruct (compute_delta (get_attributes instance) previous) as [delta|e];
          [|done].
        destruct Hs as [_ ->]. cbv zeta.
        destruct (first_raise _ _ _ _); eexists _, _;
          (split; [reflexivity|]); (split; [by (left + (right; eexists))|]);
          right; exists (changed (get_attributes instance) previous);
          (split; [apply changed_subseteq|done]).
    + by rewrite post_save_no_snapshot by (done || by rewrite Hprev).
Qed.

(** X12: whatever the state, the flag and the subscribers, the calls a
    save makes are well formed: they go to the subscribers at the head of
    [_callbacks], one call each and in the order of the list, for the
    sender's model class, with the event ["create"] or ["update"] that
    the flag selects.  The payload of the first call holds the
    instance's primary key under ["id"], and a ["data"] entry in it is
    never empty and never holds a key or a value that is not among the
    instance's current whitelisted attributes; when every subscriber
    returns and leaves the payload as it got it, this holds of the
    payload of every call. *)
Theorem save_calls_are_well_formed sender instance created s :
  let well_formed (p : payload) :=
    p !! "id" = Some (pid (pk instance)) ∧
    ∀ d, p !! "data" = Some (pdata d) → d ≠ ∅ ∧ d ⊆ get_attributes instance in
  ∃ new,
    calls (post_save_callback sender instance created s).2 = calls s ++ new ∧
    (inv_callback <$> new) `prefix_of` _callbacks s ∧
    Forall (λ i, inv_model_class i = sender ∧
                 inv_event i = (if created then "create" else "update")) new ∧
    (∀ i, head new = Some i → well_formed (inv_payload i)) ∧
    (subscribers_observe s → Forall (λ i, well_formed (inv_payload i)) new).
Proof.
  intros well_formed.
  assert (∀ d0, d0 ⊆ get_attributes instance →
            well_formed (build_payload (pk instance) (Some d0))) as Hbuilt.
  { intros d0 Hd0. split; [apply build_payload_id|].
    intros d. rewrite (build_payload_data (pk instance) (Some d0)).
    destruct (decide (d0 = ∅)); [done|]. by intros [= <-]. }
  destruct (post_save_shape sender instance created s)
    as (snaps' & new & -> & _ & [->|(d0 & Hd0 & ->)]).
  - exists []. split; [done|]. split; [apply prefix_nil|].
    split; [done|]. split; [done|]. by intros _.
  - eexists. split; [reflexivity|].
    split; [apply subscriber_calls_prefix|].
    split; [apply subscriber_calls_labels|].
    split.
    + intros i Hi. destruct (_callbacks s) as [|cb rest]; [done|].
      simpl in Hi. injection Hi as <-. by apply Hbuilt.
    + intros Hobs.
      destruct (observing_run s sender (if created then "create" else "update")
                  (build_payload (pk instance) (Some d0)) Hobs) as (-> & _ & _).
      apply Forall_forall. intros i Hin. unfold deliveries in Hin.
      apply list_elem_of_fmap in Hin as (cb & -> & Hcb). by apply Hbuilt.
Qed.

(** X13: no hook ever changes the subscriber list or the registered
    list, and none removes or rewrites an entry of the call log: the log
    after a hook extends the log before it. *)
Theorem hooks_preserve_registry_and_subscribers sender instance created s :
  let kept (s' : state) :=
    _callbacks s' = _callbacks s ∧
    _registered_models s' = _registered_models s ∧
    calls s `prefix_of` calls s' in
  kept (post_init_callback sender instance s).2 ∧
  kept (post_save_callback sender instance created s).2 ∧
  kept (post_delete_callback sender instance s).2 ∧
  kept (destructor instance s).2.
Proof.
  intros kept. subst kept. cbv beta. split; [|split; [|split]].
  - unfold post_init_callback. run. by case_decide.
  - destruct (post_save_shape sender instance created s)
      as (snaps' & new & -> & _). simpl.
    split; [done|]. split; [done|]. by apply prefix_app_r.
  - unfold post_delete_callback. run. case_decide; [done|].
    rewrite publish_run. simpl.
    destruct (first_raise _ _ _ _); simpl;
      (split; [done|]); (split; [done|]); by apply prefix_app_r.
  - unfold destructor. run. by case_decide.
Qed.


(** X15: the registry and subscriber operations never touch the snapshot
    store or the call log, whether they return or raise; in particular
    unregistering a model keeps the snapshots of its instances. *)
Theorem registry_operations_leave_snapshots sender (cb : callback) s :
  let kept (s' : state) := _snapshots s' = _snapshots s ∧ calls s' = calls s in
  kept (register sender s).2 ∧
  kept (unregister sender s).2 ∧
  kept (add_callback cb s).2 ∧
  _callbacks (register sender s).2 = _callbacks s ∧
  _callbacks (unregister sender s).2 = _callbacks s ∧
  _registered_models (add_callback cb s).2 = _registered_models s.
Proof.
  intros kept. subst kept. cbv beta.
  unfold register, unregister, add_callback. run.
  by destruct (list_remove sender (_registered_models s)).
Qed.

(** ** Construction and destruction *)

(** X18: constructing a registered instance and then running its
    destructor calls no subscriber and leaves the store without an entry
    under the instance's handle; when the handle was free before, the
    state is exactly what it was. *)
Theorem construct_then_destruct_round_trip sender instance s :
  sender ∈ _registered_models s →
  (post_init_callback sender instance;; destructor instance) s =
    (Ok tt,
     State (delete (py_id instance) (_snapshots s))
       (_callbacks s) (_registered_models s) (calls s)) ∧
  (_snapshots s !! py_id instance = None →
   (post_init_callback sender instance;; destructor instance) s = (Ok tt, s)).
Proof.
  intros Hreg.
  assert ((post_init_callback sender instance;; destructor instance) s =
          (Ok tt, State (delete (py_id instance) (_snapshots s))
                    (_callbacks s) (_registered_models s) (calls s))) as Hrun.
  { unfold mbind, M_bind, bind. rewrite post_init_registered by done.
    unfold destructor. run.
    rewrite decide_True by (rewrite lookup_insert_eq; by eexists).
    run. unfold set_snapshots. simpl. by rewrite delete_insert_eq. }
  split; [done|]. intros Hnone. rewrite Hrun, delete_id by done. by destruct s.
Qed.

(** X19: the store has one entry per handle: constructing a second
    registered object under a handle that is already in the store (the
    address of an object whose snapshot was never dropped) replaces the
    older snapshot, so the state is the one the second construction
    alone would give. *)
Theorem construction_overwrites_stale_snapshot sender (a b : model_instance) s :
  sender ∈ _registered_models s →
  py_id a = py_id b →
  (post_init_callback sender a;; post_init_callback sender b) s =
    post_init_callback sender b s.
Proof.
  intros Hreg Hid. unfold mbind, M_bind, bind.
  rewrite (post_init_registered sender a s) by done.
  rewrite !post_init_registered by done. simpl.
  by rewrite Hid, insert_insert_eq.
Qed.

(** X20: the attributes of an object depend only on which names are in
    its field list and on the entries of [__dict__] under those names:
    the order and repetitions of the field list, and any entry of
    [__dict__] under another name, make no difference. *)
Theorem get_attributes_depends_only_on_whitelisted_entries (a b : model_instance) :
  (∀ key, key ∈ _meta_fields a ↔ key ∈ _meta_fields b) →
  (∀ key, key ∈ _meta_fields a → __dict__ a !! key = __dict__ b !! key) →
  get_attributes a = get_attributes b.
Proof.
  intros Hfields Hdict. apply map_eq. intros key. apply option_eq. intros v.
  rewrite !get_attributes_lookup, <-Hfields. split.
  - intros [Hv Hin]. split; [|done]. by rewrite <-Hdict.
  - intros [Hv Hin]. split; [|done]. by rewrite Hdict.
Qed.

End properties.

(** * The claims on the [Order], [Profile] and [Reading] scenarios *)

Import Scenario.

Lemma listener_observes (s : st) :
  _callbacks s = [listener] → subscribers_observe s.
Proof.
  intros Hcbs cb model_class event p Hin. rewrite Hcbs in Hin.
  inversion Hin as [|? ? ? Hnil]; subst; [reflexivity|inversion Hnil].
Qed.

Lemma listener_returns (s : st) :
  _callbacks s = [listener] → subscribers_return s.
Proof. intros Hcbs. by apply observing_returns, listener_observes. Qed.

Lemma equal_to_themselves (d : gmap string pyval) :
  map_Forall (λ _ v, unequal_to_itself v = false) d →
  ∀ key v, d !! key = Some v → unequal_to_itself v = false.
Proof. intros Hall key v Hv. by apply (Hall key v). Qed.

(** ** C1 *)

(** C1 as stated fails on two registered instances that have a stored
    snapshot.  The first snapshot lacks a key of the current attributes
    (the object came from a query that deferred [status]): the save
    raises [KeyError].  The second is empty (a [Profile]): the save
    raises at the guard.  In both no ["update"] event reaches the
    subscriber. *)
Lemma update_over_partial_snapshot_raises :
  (let s1 := (post_init_callback "Order" order_deferred ready).2 in
   ("Order" ∈ _registered_models s1) ∧
   _snapshots s1 !! py_id order_paid = Some (get_attributes order_deferred) ∧
   post_save_callback "Order" order_paid false s1 = (Raise (KeyError "status"), s1) ∧
   calls s1 = []) ∧
  (let s1 := (post_init_callback "Profile" profile ready_profile).2 in
   ("Profile" ∈ _registered_models s1) ∧
   _snapshots s1 !! py_id profile = Some (get_attributes profile) ∧
   post_save_callback "Profile" profile false s1 = (Raise snapshot_not_found, s1) ∧
   calls s1 = []).
Proof.
  split; cbv zeta.
  - split; [by left|]. split; [reflexivity|]. split; [|reflexivity].
    vm_compute. reflexivity.
  - split; [by left|]. split; [reflexivity|]. split; reflexivity.
Qed.

Lemma update_publishes_exact_delta_witness :
  ∃ delta,
    let p := build_payload (pk order_paid) (Some delta) in
    let r := post_save_callback "Order" order_paid false tracked in
    (∀ key v, delta !! key = Some v ↔
       get_attributes order_paid !! key = Some v ∧
       ∃ old, get_attributes order_saved !! key = Some old ∧ py_ne v old = true) ∧
    p !! "id" = Some (PId (pk order_paid)) ∧
    p !! "data" = (if decide (delta = ∅) then None else Some (PData delta)) ∧
    calls r.2 = calls tracked ++ subscriber_calls (_callbacks tracked) "Order" "update" p ∧
    r.1 = Ok tt ∧
    calls r.2 = calls tracked ++ deliveries (_callbacks tracked) "Order" "update" p.
Proof.
  destruct (update_publishes_exact_delta "Order" order_paid
              (get_attributes order_saved) tracked)
    as (delta & Hdelta & Hid & Hdata & Hcalls & Hobs).
  - by left.
  - reflexivity.
  - split; computed.
  - exists delta. cbv zeta. cbv zeta in Hobs.
    destruct (Hobs (listener_observes tracked eq_refl)) as [Hok Hall].
    split; [exact Hdelta|]. split; [exact Hid|]. split; [exact Hdata|].
    split; [exact Hcalls|]. split; [exact Hok|exact Hall].
Defined.

(** ** C2 *)

(** C2 as stated fails in both directions of its second half.  A
    snapshot that exists and is empty ([Profile] has no whitelisted key
    in [__dict__]): the save raises although the store has an entry under
    the handle.  And a subscriber that raises makes the save raise over a
    usable snapshot, after the event has been handed to it. *)
Lemma update_raises_with_snapshot_present :
  (let s1 := (post_init_callback "Profile" profile ready_profile).2 in
   _snapshots s1 !! py_id profile = Some ∅ ∧
   post_save_callback "Profile" profile false s1 = (Raise snapshot_not_found, s1)) ∧
  (_snapshots tracked_noisy !! py_id order_paid = Some (get_attributes order_saved) ∧
   post_save_callback "Order" order_paid false tracked_noisy =
     (Raise unexpected_keyword,
      State (_snapshots tracked_noisy) [my_callback; listener] ["Order"]
        [Invocation my_callback "Order" "update"
           (with_data (Some 7%Z) {["status" := PyStr "paid"]})])).
Proof.
  split; [split; reflexivity|]. split; [reflexivity|].
  vm_compute. reflexivity.
Qed.

Lemma update_raises_iff_no_usable_snapshot_witness :
  let r := post_save_callback "Order" order_paid false tracked in
  (raises r.1 ↔
     _snapshots tracked !! py_id order_paid = None ∨
     ∃ previous, _snapshots tracked !! py_id order_paid = Some previous ∧
                 ¬ usable_snapshot (get_attributes order_paid) previous) ∧
  (raises r.1 → r.2 = tracked).
Proof.
  apply (update_raises_iff_no_usable_snapshot "Order" order_paid tracked).
  - by left.
  - by apply listener_returns.
Defined.

(** ** C3 *)

(** C3 as stated fails for an empty attribute set: the ["create"]
    payload of a [Profile] has no ["data"] key.  It fails with the
    docstring's subscriber first in the list: [listener] gets no
    ["create"] event.  And it fails with a subscriber that returns after
    removing a key from [payload["data"]]: the event [listener] then
    gets does not hold the full attribute set. *)
Lemma create_without_data_or_delivery :
  ((post_init_callback "Profile" profile;; post_save_callback "Profile" profile true)
     ready_profile =
     (Ok tt, State {[8192%Z := ∅]} [listener] ["Profile"]
               [Invocation listener "Profile" "create" (only_id (Some 3%Z))]) ∧
   only_id (Some 3%Z) !! "data" = None) ∧
  (post_init_callback "Order" order_new;; post_save_callback "Order" order_saved true)
    ready_noisy =
    (Raise unexpected_keyword,
     State {[4096%Z := get_attributes order_new]} [my_callback; listener] ["Order"]
       [Invocation my_callback "Order" "create"
          (with_data (Some 7%Z) (get_attributes order_saved))]) ∧
  (calls ((post_init_callback "Order" order_new;;
           post_save_callback "Order" order_saved true) ready_trimmed).2 =
     [Invocation trimmer "Order" "create"
        (with_data (Some 7%Z) (get_attributes order_saved));
      Invocation listener "Order" "create"
        (with_data (Some 7%Z) (delete "total" (get_attributes order_saved)))] ∧
   delete "total" (get_attributes order_saved) ≠ get_attributes order_saved).
Proof.
  split; [split; [vm_compute|]; reflexivity|].
  split; [vm_compute; reflexivity|].
  split; [vm_compute; reflexivity|computed].
Qed.

Lemma create_publishes_full_attributes_witness :
  let attributes := get_attributes order_saved in
  let p := build_payload (pk order_saved) (Some attributes) in
  let s1 := (post_init_callback "Order" order_new ready).2 in
  let r := post_save_callback "Order" order_saved true s1 in
  (post_init_callback "Order" order_new ready).1 = Ok tt ∧
  calls s1 = calls ready ∧
  p !! "id" = Some (PId (pk order_saved)) ∧
  p !! "data" = (if decide (attributes = ∅) then None else Some (PData attributes)) ∧
  (∀ key v, attributes !! key = Some v ↔
     __dict__ order_saved !! key = Some v ∧ key ∈ _meta_fields order_saved) ∧
  calls r.2 = calls ready ++ subscriber_calls (_callbacks ready) "Order" "create" p ∧
  r.1 = Ok tt ∧
  calls r.2 = calls ready ++ deliveries (_callbacks ready) "Order" "create" p.
Proof.
  destruct (create_publishes_full_attributes "Order" order_new order_saved ready)
    as (Hinit & Hquiet & Hid & Hdata & Hattrs & Hcalls & Hobs).
  - by left.
  - cbv zeta. cbv zeta in Hobs.
    destruct (Hobs (listener_observes ready eq_refl)) as [Hok Hall].
    split; [exact Hinit|]. split; [exact Hquiet|]. split; [exact Hid|].
    split; [exact Hdata|]. split; [exact Hattrs|]. split; [exact Hcalls|].
    split; [exact Hok|exact Hall].
Defined.

(** ** C4 *)

(** C4 as stated fails when the stored snapshot is empty: a [Profile]
    is constructed, saved as new and saved again with nothing changed;
    the second save raises, and the only event the subscriber ever gets
    is the ["create"] one.  It also fails for a value that is not equal
    to itself: the save of a [Reading] whose [value] is still the
    [float('nan')] of the snapshot publishes the entry as ["data"]. *)
Lemma unchanged_update_of_empty_snapshot_raises :
  (let s2 := ((post_init_callback "Profile" profile;;
               post_save_callback "Profile" profile true) ready_profile).2 in
   _snapshots s2 !! py_id profile = Some (get_attributes profile) ∧
   post_save_callback "Profile" profile false s2 = (Raise snapshot_not_found, s2) ∧
   (inv_event <$> calls s2) = ["create"]) ∧
  (_snapshots tracked_reading !! py_id reading = Some (get_attributes reading) ∧
   post_save_callback "Reading" reading false tracked_reading =
     (Ok tt,
      State (_snapshots tracked_reading) [listener] ["Reading"]
        [Invocation listener "Reading" "update"
           (with_data (Some 1%Z) {["value" := PyNaN]})])).
Proof.
  split; cbv zeta.
  - split; [vm_compute; reflexivity|].
    split; vm_compute; reflexivity.
  - split; [reflexivity|]. vm_compute. reflexivity.
Qed.

Lemma unchanged_update_has_no_data_witness :
  let p : gmap string payload_value := {["id" := PId (pk order_saved)]} in
  let r := post_save_callback "Order" order_saved false tracked in
  p !! "id" = Some (PId (pk order_saved)) ∧
  p !! "data" = None ∧
  calls r.2 = calls tracked ++ subscriber_calls (_callbacks tracked) "Order" "update" p ∧
  r = (Ok tt, State (_snapshots tracked) (_callbacks tracked) (_registered_models tracked)
                (calls tracked ++ deliveries (_callbacks tracked) "Order" "update" p)).
Proof.
  destruct (unchanged_update_has_no_data "Order" order_saved tracked)
    as (Hid & Hdata & Hcalls & Hobs).
  - by left.
  - reflexivity.
  - computed.
  - apply equal_to_themselves. computed.
  - cbv zeta. cbv zeta in Hobs.
    split; [exact Hid|]. split; [exact Hdata|]. split; [exact Hcalls|].
    exact (Hobs (listener_observes tracked eq_refl)).
Defined.

(** ** C5 *)



(** ** C6 *)

(** C6 as stated fails with the docstring's subscriber ahead of
    [listener]: [publish] raises after one call, and [listener] is
    registered and never called.  It also fails with a subscriber that
    returns after removing a key from [payload["data"]]: [listener] is
    called with another payload than the subscriber before it, and the
    dictionary passed as [attributes] has lost the key. *)
Lemma publish_skips_subscribers_after_a_raise :
  (_callbacks tracked_noisy = [my_callback; listener] ∧
   publish "Order" "delete" (Some 7%Z) None tracked_noisy =
     (Raise unexpected_keyword,
      State (_snapshots tracked_noisy) [my_callback; listener] ["Order"]
        [Invocation my_callback "Order" "delete" (only_id (Some 7%Z))])) ∧
  (publish "Order" "create" (Some 7%Z) (Some (get_attributes order_saved)) tracked_trimmed =
     (Ok (Some (delete "total" (get_attributes order_saved))),
      State (_snapshots tracked_trimmed) [trimmer; listener] ["Order"]
        [Invocation trimmer "Order" "create"
           (with_data (Some 7%Z) (get_attributes order_saved));
         Invocation listener "Order" "create"
           (with_data (Some 7%Z) (delete "total" (get_attributes order_saved)))]) ∧
   with_data (Some 7%Z) (delete "total" (get_attributes order_saved)) ≠
     with_data (Some 7%Z) (get_attributes order_saved)).
Proof.
  split; [split; reflexivity|].
  split; [vm_compute; reflexivity|].
  intros Heq.
  apply (f_equal (λ p, match p !! "data" with
                       | Some (PData d) => d !! "total"
                       | _ => None
                       end)) in Heq.
  vm_compute in Heq. discriminate.
Qed.

Lemma publish_calls_every_subscriber_once_witness :
  let o := Some (get_attributes order_paid) in
  let p := build_payload (Some 7%Z) o in
  let r := publish "Order" "create" (Some 7%Z) o tracked in
  p !! "id" = Some (PId (Some 7%Z)) ∧
  (∀ x, p !! "data" = Some x ↔ ∃ d, o = Some d ∧ d ≠ ∅ ∧ x = PData d) ∧
  (returns r.1 ∧
   ∃ new, calls r.2 = calls tracked ++ new ∧
          inv_callback <$> new = _callbacks tracked ∧
          Forall (λ i, inv_model_class i = "Order" ∧ inv_event i = "create") new) ∧
  r = (Ok o, State (_snapshots tracked) (_callbacks tracked) (_registered_models tracked)
               (calls tracked ++ deliveries (_callbacks tracked) "Order" "create" p)) ∧
  (∀ cb, add_callback cb tracked =
     (Ok tt, State (_snapshots tracked) (_callbacks tracked ++ [cb])
               (_registered_models tracked) (calls tracked))).
Proof.
  destruct (publish_calls_every_subscriber_once "Order" "create" (Some 7%Z)
              (Some (get_attributes order_paid)) tracked)
    as (Hid & Hdata & Hret & Hobs & Hadd).
  cbv zeta.
  split; [exact Hid|]. split; [exact Hdata|].
  split; [exact (Hret (listener_returns tracked eq_refl))|].
  split; [|exact Hadd].
  apply Hobs. intros cb Hin. by apply (listener_observes tracked).
Defined.

(** ** C7 *)

Lemma unregistered_hooks_are_noops_witness :
  post_init_callback "Invoice" order_paid tracked = (Ok tt, tracked) ∧
  post_save_callback "Invoice" order_paid false tracked = (Ok tt, tracked) ∧
  post_delete_callback "Invoice" order_paid tracked = (Ok tt, tracked).
Proof.
  apply (unregistered_hooks_are_noops "Invoice" order_paid false tracked).
  computed.
Defined.

(** ** C8 *)

(** C8 as stated fails when nothing is registered: [unregister] raises
    [ValueError]. *)
Lemma unregister_of_unregistered_model_raises :
  ("Order" ∉ _registered_models fresh) ∧
  unregister "Order" fresh = (Raise (ValueError "list.remove(x): x not in list"), fresh).
Proof. split; [computed|reflexivity]. Qed.

Lemma unregister_absent_raises_witness :
  unregister "Invoice" tracked =
    (Raise (ValueError "list.remove(x): x not in list"), tracked).
Proof.
  apply (unregister_absent_raises "Invoice" tracked).
  computed.
Defined.

(** ** C10 *)

Lemma missing_snapshot_raise_is_atomic_witness :
  post_save_callback "Order" order_paid false ready = (Raise snapshot_not_found, ready).
Proof.
  apply (missing_snapshot_raise_is_atomic "Order" order_paid ready).
  - by left.
  - by left.
Defined.

(** * The further properties on the scenarios *)

Lemma unregister_removes_first_occurrence_witness :
  ∃ l1 l2,
    _registered_models tracked = l1 ++ "Order" :: l2 ∧
    ("Order" ∉ l1) ∧
    unregister "Order" tracked =
      (Ok tt, State (_snapshots tracked) (_callbacks tracked) (l1 ++ l2) (calls tracked)).
Proof.
  apply (unregister_removes_first_occurrence "Order" tracked).
  by left.
Defined.

Lemma unregister_silences_hooks_witness :
  (unregister "Order";; post_save_callback "Order" order_paid false) tracked =
    (Ok tt, State (_snapshots tracked) (_callbacks tracked) ([] ++ []) (calls tracked)).
Proof.
  apply (unregister_silences_hooks "Order" order_paid false [] [] tracked).
  - reflexivity.
  - apply not_elem_of_nil.
  - apply not_elem_of_nil.
Defined.

Lemma late_registration_makes_update_raise_witness :
  (post_init_callback "Order" order_paid;; register "Order";;
   post_save_callback "Order" order_paid false) ready_profile =
    (Raise snapshot_not_found,
     State (_snapshots ready_profile) (_callbacks ready_profile)
       (_registered_models ready_profile ++ ["Order"]) (calls ready_profile)).
Proof.
  apply (late_registration_makes_update_raise "Order" order_paid ready_profile).
  - computed.
  - reflexivity.
Defined.




Lemma delta_replays_onto_previous_witness :
  let current := get_attributes order_paid in
  let previous := get_attributes order_saved in
  let delta : gmap string pyval := {["status" := PyStr "paid"]} in
  (∀ key, is_Some (current !! key) → (delta ∪ previous) !! key = current !! key) ∧
  (dom current = dom previous → delta ∪ previous = current).
Proof.
  apply (delta_replays_onto_previous (get_attributes order_paid)
           (get_attributes order_saved) {["status" := PyStr "paid"]}).
  vm_compute. reflexivity.
Defined.

Lemma save_calls_are_well_formed_witness :
  let well_formed (p : gmap string payload_value) :=
    p !! "id" = Some (PId (pk order_paid)) ∧
    ∀ d, p !! "data" = Some (PData d) → d ≠ ∅ ∧ d ⊆ get_attributes order_paid in
  ∃ new,
    calls (post_save_callback "Order" order_paid false tracked).2 = calls tracked ++ new ∧
    (inv_callback <$> new) `prefix_of` _callbacks tracked ∧
    Forall (λ i, inv_model_class i = "Order" ∧ inv_event i = "update") new ∧
    (∀ i, head new = Some i → well_formed (inv_payload i)) ∧
    Forall (λ i, well_formed (inv_payload i)) new.
Proof.
  destruct (save_calls_are_well_formed "Order" order_paid false tracked)
    as (new & Hcalls & Hprefix & Hlabels & Hhead & Hobs).
  exists new. split; [exact Hcalls|]. split; [exact Hprefix|].
  split; [exact Hlabels|]. split; [exact Hhead|].
  exact (Hobs (listener_observes tracked eq_refl)).
Defined.


Lemma construct_then_destruct_round_trip_witness :
  (post_init_callback "Order" order_new;; destructor order_new) ready =
    (Ok tt,
     State (delete (py_id order_new) (_snapshots ready))
       (_callbacks ready) (_registered_models ready) (calls ready)) ∧
  (_snapshots ready !! py_id order_new = None →
   (post_init_callback "Order" order_new;; destructor order_new) ready = (Ok tt, ready)).
Proof.
  apply (construct_then_destruct_round_trip "Order" order_new ready).
  by left.
Defined.

Lemma construction_overwrites_stale_snapshot_witness :
  (post_init_callback "Order" order_new;; post_init_callback "Order" order_saved) ready =
    post_init_callback "Order" order_saved ready.
Proof.
  apply (construction_overwrites_stale_snapshot "Order" order_new order_saved ready).
  - by left.
  - reflexivity.
Defined.

Lemma get_attributes_depends_only_on_whitelisted_entries_witness :
  get_attributes order_paid = get_attributes order_reloaded.
Proof.
  apply (get_attributes_depends_only_on_whitelisted_entries order_paid order_reloaded).
  - intros key. simpl. unfold fields.
    rewrite !elem_of_cons, !elem_of_nil. tauto.
  - intros key. simpl. unfold fields.
    rewrite !elem_of_cons, !elem_of_nil.
    intros [->|[->|[->|[]]]]; reflexivity.
Defined.
